(** * GeeksforGeeks Profile API: the HTTP application of [main.py]

    A shallow embedding of the FastAPI application declared in [main.py]:
    the lifespan context manager, the response models, the request
    handlers, and the properties of the HTTP surface that follow from
    them.

    The handlers are asynchronous functions that await functions imported
    from the modules [scraper], [svg] and [docs].  Those modules are
    interfaces here (class [Imports]); every handler is written against
    the interface, in a state-and-exception monad that also records which
    imported functions the application called. *)

From Stdlib Require Import ZArith Lia.
From stdpp Require Import gmap strings list fin_maps.

Set Warnings "-register-all".
Local Open Scope Z_scope.

(** ** Python values

    The values that travel through the handlers: what the scraper returns,
    what a handler hands to the framework for JSON serialisation.  A Python
    [dict] with string keys is a finite map. *)

Inductive pyval :=
| PNone
| PBool (b : bool)
| PInt (z : Z)
| PStr (s : string)
| PList (l : list pyval)
| PDict (d : gmap string pyval).

Abbreviation pydict := (gmap string pyval).

(** ** Exceptions and results *)

Inductive exn :=
| HTTPException (status_code : Z) (detail : pyval)
    (* fastapi.HTTPException(status_code=..., detail=...) *)
| RequestValidationError (param : string)
    (* raised by the framework while it binds the parameters *)
| ResponseValidationError (model : string)
    (* raised by the framework when a returned value does not fit the
       declared response_model *)
| PyException (name : string).
    (* any other exception, raised inside imported code *)

Inductive result (A : Type) :=
| Returned (a : A)
| Raised (e : exn).

Arguments Returned {A} a.
Arguments Raised {A} e.

(** What a handler returns: a dict (the framework serialises it to JSON) or
    an explicit [Response] object. *)

Inductive response :=
| JSONBody (data : pydict)
| Response (content : string) (media_type : string)
           (headers : gmap string string).

(** ** The imported modules

    [from scraper import get_gfg_data, fetch_user_profile,
    fetch_problem_list, close_browser], [from svg import
    generate_stats_svg] and [from docs import get_custom_docs_html].  The
    scraper functions are coroutines over the state [Env] of the scraper
    (browser session, cache, the remote site); each returns a dict or
    raises. *)

Class Imports (Env : Type) := {
  get_gfg_data : string -> Env -> result pydict * Env;
  fetch_user_profile : string -> Env -> result pydict * Env;
  fetch_problem_list : string -> Env -> result pydict * Env;
  close_browser : Env -> result unit * Env;
  generate_stats_svg : pydict -> string;
  get_custom_docs_html : string
}.

(** ** The monad of the application

    The state is the scraper's state together with the list of calls that
    [main.py] made into the scraper, oldest first. *)

Inductive call :=
| Call_get_gfg_data (userName : string)
| Call_fetch_user_profile (userName : string)
| Call_fetch_problem_list (userName : string)
| Call_close_browser.

Global Instance call_eq_dec : EqDecision call.
Proof. solve_decision. Defined.

Record world (Env : Type) := World {
  env : Env;
  calls : list call
}.

Arguments World {Env} env calls.
Arguments env {Env} w.
Arguments calls {Env} w.

Definition M (Env A : Type) : Type := world Env -> result A * world Env.

Definition ret {Env A} (a : A) : M Env A := fun w => (Returned a, w).

Definition raise {Env A} (e : exn) : M Env A := fun w => (Raised e, w).

Definition bind {Env A B} (c : M Env A) (k : A -> M Env B) : M Env B :=
  fun w =>
    match c w with
    | (Returned a, w') => k a w'
    | (Raised e, w') => (Raised e, w')
    end.

Notation "'let*' x ':=' c 'in' k" := (bind c (fun x => k))
  (at level 10, x name, c at level 100, k at level 200,
   format "'[v' 'let*'  x  ':='  c  'in' '/' k ']'").

(** [await f(...)]: run the imported coroutine on the scraper's state and
    record the call. *)

Definition await {Env A} (c : call) (f : Env -> result A * Env) : M Env A :=
  fun w =>
    let (r, e') := f (env w) in
    (r, World e' (calls w ++ [c])).

(** [try: body finally: fin].  The [finally] block runs whether the body
    returned or raised; afterwards the body's outcome stands, unless the
    [finally] block itself raised. *)

Definition try_finally {Env A} (body : M Env A) (fin : M Env unit) : M Env A :=
  fun w =>
    let (r, w1) := body w in
    match fin w1 with
    | (Returned _, w2) => (r, w2)
    | (Raised e, w2) => (Raised e, w2)
    end.

(** The three data entry points. *)

Inductive data_endpoint :=
| profile_endpoint
| stats_endpoint (format : string)
| problems_endpoint.

(** ** Lifecycle management *)

Section Application.

Context {Env : Type} `{Imports Env}.

(** [lifespan]: an [asynccontextmanager] whose generator is
    [try: yield finally: await close_browser()].  [app_body] is what runs
    while the context is open, between startup and shutdown. *)

Definition lifespan {A} (app_body : M Env A) : M Env A :=
  try_finally app_body (await Call_close_browser close_browser).

(** ** API endpoints *)

(** [@app.get("/")] *)
Definition health_check : M Env response :=
  ret (JSONBody (<["status" := PStr "ok"]>
                 (<["service" := PStr "GFG Scraper"]> ∅))).

(** [@app.get("/docs", include_in_schema=False)] *)
Definition custom_docs : M Env response :=
  ret (Response get_custom_docs_html "text/html" ∅).

(** [@app.get("/profile/{userName}", response_model=UserProfile)] *)
Definition get_user_profile_endpoint (userName : string) : M Env response :=
  let* data := await (Call_fetch_user_profile userName)
                     (fetch_user_profile userName) in
  match data !! "error" with
  | Some detail => raise (HTTPException 404 detail)
  | None => ret (JSONBody data)
  end.

(** [@app.get("/stats/{userName}")], with the query parameter [format]
    already bound. *)
Definition get_user_stats_endpoint (userName : string) (format : string)
  : M Env response :=
  let* data := await (Call_get_gfg_data userName) (get_gfg_data userName) in
  match data !! "error" with
  | Some detail => raise (HTTPException 404 detail)
  | None =>
      if String.eqb format "svg" then
        let svg_content := generate_stats_svg data in
        ret (Response svg_content "image/svg+xml"
                      {["Cache-Control" := "public, max-age=14400"]})
      else ret (JSONBody data)
  end.

(** [@app.get("/problems/{userName}", response_model=SolvedProblems)] *)
Definition get_solved_problems_endpoint (userName : string) : M Env response :=
  let* data := await (Call_fetch_problem_list userName)
                     (fetch_problem_list userName) in
  match data !! "error" with
  | Some detail => raise (HTTPException 404 detail)
  | None => ret (JSONBody data)
  end.

(** [@app.get("/{userName}")] *)
Definition get_stats_card (userName : string) : M Env response :=
  let* data := await (Call_get_gfg_data userName) (get_gfg_data userName) in
  match data !! "error" with
  | Some detail => raise (HTTPException 404 detail)
  | None =>
      let svg_content := generate_stats_svg data in
      ret (Response svg_content "image/svg+xml"
                    {["Cache-Control" := "public, max-age=14400"]})
  end.

(** ** Binding the request

    The routes of [main.py] in the order of their decorators.  A request
    is given with its route already chosen and its path parameter
    extracted; the query string of [/stats/{userName}] may or may not carry
    [format]. *)

Inductive request :=
| GET_root
| GET_docs
| GET_profile (userName : string)
| GET_stats (userName : string) (format : option string)
| GET_problems (userName : string)
| GET_card (userName : string).

(** [format: Literal["json", "svg"] = Query("json", ...)]: the default
    when the parameter is absent, and the check of a supplied value against
    the two literals. *)

Definition Query_format (supplied : option string) : result string :=
  match supplied with
  | None => Returned "json"
  | Some v =>
      if bool_decide (v ∈ ["json"; "svg"]) then Returned v
      else Raised (RequestValidationError "format")
  end.

(** The framework binds the parameters, and calls the handler only when
    binding succeeded. *)

Definition handle_request (req : request) : M Env response :=
  match req with
  | GET_root => health_check
  | GET_docs => custom_docs
  | GET_profile userName => get_user_profile_endpoint userName
  | GET_stats userName supplied =>
      match Query_format supplied with
      | Returned format => get_user_stats_endpoint userName format
      | Raised e => raise e
      end
  | GET_problems userName => get_solved_problems_endpoint userName
  | GET_card userName => get_stats_card userName
  end.

(** The application body while the lifespan context is open: requests are
    answered one after the other.  Whatever a handler returns or raises is
    turned into an HTTP response by the framework, and the next request is
    served. *)

Fixpoint serve (reqs : list request) : M Env unit :=
  match reqs with
  | [] => ret tt
  | req :: reqs' =>
      fun w => serve reqs' (snd (handle_request req w))
  end.

(** ** The data entry points, taken together *)

(** The handler of a data entry point, the scraper function it awaits, and
    the response it builds from error-free data. *)

Definition handler_of (ep : data_endpoint) (userName : string)
  : M Env response :=
  match ep with
  | profile_endpoint => get_user_profile_endpoint userName
  | stats_endpoint format => get_user_stats_endpoint userName format
  | problems_endpoint => get_solved_problems_endpoint userName
  end.

Definition scraper_of (ep : data_endpoint) (userName : string)
  : Env -> result pydict * Env :=
  match ep with
  | profile_endpoint => fetch_user_profile userName
  | stats_endpoint _ => get_gfg_data userName
  | problems_endpoint => fetch_problem_list userName
  end.

Definition call_of (ep : data_endpoint) (userName : string) : call :=
  match ep with
  | profile_endpoint => Call_fetch_user_profile userName
  | stats_endpoint _ => Call_get_gfg_data userName
  | problems_endpoint => Call_fetch_problem_list userName
  end.

Definition success_of (ep : data_endpoint) (data : pydict) : response :=
  match ep with
  | stats_endpoint format =>
      if String.eqb format "svg"
      then Response (generate_stats_svg data) "image/svg+xml"
                    {["Cache-Control" := "public, max-age=14400"]}
      else JSONBody data
  | _ => JSONBody data
  end.

End Application.

(** The number of [close_browser] calls recorded so far. *)

Definition close_count (cs : list call) : nat :=
  length (filter (fun c => c = Call_close_browser) cs).

(** ** Pydantic models

    A [BaseModel] subclass is its list of fields in declaration order: the
    field's name, its annotation, and its default ([Field(...)] and a bare
    annotation declare a required field). *)

Inductive model_name := UserProfile | UserStats | Problem | SolvedProblems.

Inductive annotation :=
| ann_str
| ann_int
| ann_List (item : annotation)
| ann_Dict_str (value : annotation)
| ann_model (m : model_name).

Record field := Field {
  name : string;
  ann : annotation;
  default_value : option pyval
}.

Definition model_fields (m : model_name) : list field :=
  match m with
  | UserProfile =>
      [ Field "userName" ann_str None;
        Field "fullName" ann_str (Some (PStr EmptyString));
        Field "designation" ann_str (Some (PStr EmptyString));
        Field "codingScore" ann_int (Some (PInt 0));
        Field "problemsSolved" ann_int (Some (PInt 0));
        Field "instituteRank" ann_int (Some (PInt 0));
        Field "articlesPublished" ann_int (Some (PInt 0));
        Field "potdStreak" ann_int (Some (PInt 0));
        Field "longestStreak" ann_int (Some (PInt 0));
        Field "potdsSolved" ann_int (Some (PInt 0)) ]
  | UserStats =>
      [ Field "userName" ann_str None;
        Field "School" ann_int (Some (PInt 0));
        Field "Basic" ann_int (Some (PInt 0));
        Field "Easy" ann_int (Some (PInt 0));
        Field "Medium" ann_int (Some (PInt 0));
        Field "Hard" ann_int (Some (PInt 0));
        Field "totalProblemsSolved" ann_int (Some (PInt 0)) ]
  | Problem =>
      [ Field "question" ann_str None;
        Field "questionUrl" ann_str None ]
  | SolvedProblems =>
      [ Field "userName" ann_str None;
        Field "problemsByDifficulty" (ann_Dict_str ann_int) None;
        Field "Problems" (ann_Dict_str (ann_List (ann_model Problem))) None ]
  end.

Definition field_names (m : model_name) : list string :=
  name <$> model_fields m.

(** The numeric fields of a model: those annotated [int]. *)

Definition is_int_field (f : field) : bool :=
  match ann f with ann_int => true | _ => false end.

Definition numeric_fields (m : model_name) : list string :=
  name <$> filter (fun f => is_int_field f = true) (model_fields m).

(** Validation.  An [int] field takes an integer as it is and a [str]
    field a string as it is; neither declares a constraint ([ge], [gt],
    [min_length], ...).  What pydantic does with an input of another type
    (its lax conversions, such as the string ["12"] for an [int] field)
    depends on the installed version and is left open in [lax]. *)

Record lax := Lax {
  lax_int : pyval -> option Z;
  lax_str : pyval -> option string
}.

(** Strict typing: no conversion at all. *)
Definition strict : lax := Lax (fun _ => None) (fun _ => None).

Definition validate_int (c : lax) (v : pyval) : option pyval :=
  match v with
  | PInt z => Some (PInt z)
  | _ => PInt <$> lax_int c v
  end.

Definition validate_str (c : lax) (v : pyval) : option pyval :=
  match v with
  | PStr s => Some (PStr s)
  | _ => PStr <$> lax_str c v
  end.

(** A dict validates when each of its values does. *)
Definition validate_dict (item : pyval -> option pyval) (d : pydict)
  : option pydict :=
  let d' := item <$> d in
  if decide (map_Forall (fun _ o => is_Some o) d')
  then Some (omap id d') else None.

(** A field of the input: validated when present, the default (taken as
    it is) when absent, an error when absent and required. *)
Definition validate_field (vann : annotation -> pyval -> option pyval)
    (f : field) (d : pydict) : option pyval :=
  match d !! name f with
  | Some v => vann (ann f) v
  | None => default_value f
  end.

(** Keys of the input that are not fields are ignored. *)
Fixpoint validate_fields (vann : annotation -> pyval -> option pyval)
    (fs : list field) (d : pydict) : option pydict :=
  match fs with
  | [] => Some ∅
  | f :: fs' =>
      v ← validate_field vann f d;
      r ← validate_fields vann fs' d;
      Some (<[name f := v]> r)
  end.

(** Annotations, given the validator [vmodel] of the models that may occur
    inside them. *)
Fixpoint validate_ann (c : lax) (vmodel : model_name -> pyval -> option pyval)
    (a : annotation) (v : pyval) : option pyval :=
  match a with
  | ann_str => validate_str c v
  | ann_int => validate_int c v
  | ann_List item =>
      match v with
      | PList l => PList <$> mapM (validate_ann c vmodel item) l
      | _ => None
      end
  | ann_Dict_str value =>
      match v with
      | PDict d => PDict <$> validate_dict (validate_ann c vmodel value) d
      | _ => None
      end
  | ann_model m => vmodel m v
  end.

(** [Problem] has no model-typed field; it is the only model that occurs
    inside another one. *)
Definition validate_nested (c : lax) (m : model_name) (v : pyval)
  : option pyval :=
  match m, v with
  | Problem, PDict d =>
      PDict <$> validate_fields (validate_ann c (fun _ _ => None))
                                (model_fields Problem) d
  | _, _ => None
  end.

(** [Model.model_validate(d)] followed by [model_dump()]: the record as a
    dict of its fields. *)
Definition validate_model (c : lax) (m : model_name) (d : pydict)
  : option pydict :=
  validate_fields (validate_ann c (validate_nested c)) (model_fields m) d.

(** The [response_model] a route declares, and its application to what
    the handler returned. *)

Definition response_model (req : request) : option model_name :=
  match req with
  | GET_profile _ => Some UserProfile
  | GET_problems _ => Some SolvedProblems
  | _ => None
  end.

Definition model_label (m : model_name) : string :=
  match m with
  | UserProfile => "UserProfile"
  | UserStats => "UserStats"
  | Problem => "Problem"
  | SolvedProblems => "SolvedProblems"
  end.

Definition apply_response_model (c : lax) (req : request) (r : response)
  : result response :=
  match response_model req, r with
  | Some m, JSONBody data =>
      match validate_model c m data with
      | Some data' => Returned (JSONBody data')
      | None => Raised (ResponseValidationError (model_label m))
      end
  | _, _ => Returned r
  end.

Definition respond {Env} `{Imports Env} (c : lax) (req : request)
  : M Env response :=
  let* r := handle_request req in
  fun w => (apply_response_model c req r, w).

(** The status code the client sees.  [main.py] registers no exception
    handler, so the framework's defaults apply: an [HTTPException] is
    answered with its own status code, a request whose parameters do not
    validate with 422, and every other exception, a response validation
    error included, is unhandled and answered with 500.  A returned dict
    and a [Response] built without a status code are sent with 200. *)
Definition status_code_of (outcome : result response) : Z :=
  match outcome with
  | Returned _ => 200
  | Raised (HTTPException status_code _) => status_code
  | Raised (RequestValidationError _) => 422
  | Raised (ResponseValidationError _) => 500
  | Raised (PyException _) => 500
  end.

(** Inputs to validation: a profile that gives only the username, and two
    with a negative number. *)

Definition only_userName : pydict := {["userName" := PStr "alice"]}.

Definition negative_score : pydict :=
  <["userName" := PStr "alice"]> {["codingScore" := PInt (-5)]}.

Definition negative_hard : pydict :=
  <["userName" := PStr "alice"]> {["Hard" := PInt (-1)]}.

(** ** A scripted scraper

    The simplest implementation of the imports: the state is a table that
    says what the scraper answers for each username.  It serves to run the
    application on concrete requests. *)

Module Scripted.

Definition table := string -> result pydict.

Definition answer (userName : string) (t : table)
  : result pydict * table := (t userName, t).

#[global] Instance imports : Imports table := {|
  get_gfg_data := answer;
  fetch_user_profile := answer;
  fetch_problem_list := answer;
  close_browser := fun t => (Returned tt, t);
  generate_stats_svg := fun _ => "<svg></svg>";
  get_custom_docs_html := "<html></html>"
|}.

Definition alice : pydict :=
  <["userName" := PStr "alice"]> (<["Easy" := PInt 3]> ∅).

Definition not_found : pydict :=
  {["error" := PStr "User not found"]}.

(** ["alice"] exists, ["crash"] makes the scraper raise, nobody else
    exists. *)
Definition demo : table := fun userName =>
  if String.eqb userName "alice" then Returned alice
  else if String.eqb userName "crash" then Raised (PyException "TimeoutError")
  else Returned not_found.

Definition start : world table := World demo [].

End Scripted.

(** ** The scraper façade *)

Module Facade.

(** Modelled from the spec: the module [scraper] ([get_gfg_data],
    [fetch_user_profile], [fetch_problem_list], [close_browser]) is not
    part of the sources.  Section 4 of the specification describes it, and
    this module follows it component by component: the session manager
    (4.1), the fetcher (4.2), the extractor (4.3), the profile cache (4.4,
    with the bounded capacity and first-in-first-out eviction the section
    allows) and the three entry points (4.5), with the error taxonomy of
    section 7.  What a remote page holds is a record of what it shows. *)

Record page := Page {
  handle : option string;
  texts : gmap string string;
  numbers : gmap string Z;
  solved : gmap string (list (string * string))
}.

(** Modelled from the spec: the raw content a navigation brings back,
    whose shape the extractor recognises or not (4.3). *)
Inductive content :=
| Unrecognized
| ProfilePage (p : page).

(** Modelled from the spec: the single browser process of 4.1, started
    lazily and closed at shutdown. *)
Inductive browser := NotStarted | Running | Closed.

(** Modelled from the spec: everything the scraper depends on.  [remote]
    is the third-party site, by identifier; [can_launch] says whether a
    browser process can be started; [outages] counts the coming navigations
    that time out; [cache] holds the bundles fetched last, newest first, at
    most [capacity] of them. *)
Record state := State {
  remote : gmap string content;
  can_launch : bool;
  outages : nat;
  session : browser;
  capacity : nat;
  cache : list (string * content)
}.

Definition with_session (b : browser) (st : state) : state :=
  State (remote st) (can_launch st) (outages st) b (capacity st) (cache st).

Definition with_outages (n : nat) (st : state) : state :=
  State (remote st) (can_launch st) n (session st) (capacity st) (cache st).

Definition with_cache (entries : list (string * content)) (st : state)
  : state :=
  State (remote st) (can_launch st) (outages st) (session st) (capacity st)
        entries.


(** Modelled from the spec: "no normalization beyond trimming whitespace"
    (4.5).  [lstrip] drops the blanks in front, [rstrip] the blanks at the
    end; blanks are the ASCII ones. *)
Fixpoint lstrip (s : string) : string :=
  match s with
  | String a s' => if Ascii.is_space a then lstrip s' else s
  | EmptyString => EmptyString
  end.

Fixpoint rstrip (s : string) : string :=
  match s with
  | String a s' =>
      match rstrip s' with
      | EmptyString =>
          if Ascii.is_space a then EmptyString else String a EmptyString
      | t => String a t
      end
  | EmptyString => EmptyString
  end.

Definition strip (s : string) : string := rstrip (lstrip s).


(** Modelled from the spec: the session manager of 4.1.  [acquire_page]
    launches the browser on first use and reuses it afterwards; when the
    browser cannot be launched, or after shutdown, it fails with
    [SessionUnavailable] and leaves the shared state as it was. *)
Definition SessionUnavailable : exn := PyException "SessionUnavailable".

Definition acquire_page (st : state) : result unit * state :=
  match session st with
  | Running => (Returned tt, st)
  | NotStarted =>
      if can_launch st then (Returned tt, with_session Running st)
      else (Raised SessionUnavailable, st)
  | Closed => (Raised SessionUnavailable, st)
  end.

(** Modelled from the spec: [shutdown] of 4.1, idempotent and safe when the
    browser never started. *)
Definition shutdown (st : state) : result unit * state :=
  (Returned tt, with_session Closed st).

(** Modelled from the spec: the fetcher of 4.2, with its three outcomes.
    A missing user is a value, never an exception, and its message names
    the username; a timeout is a transient error. *)
Inductive fetched :=
| RawContent (c : content)
| NotFound (message : string)
| TransientError.

Definition not_found_message (username : string) : string :=
  "User not found: " +:+ username.

Definition navigate (username : string) (st : state) : fetched * state :=
  match outages st with
  | S n => (TransientError, with_outages n st)
  | O =>
      match remote st !! username with
      | Some c => (RawContent c, st)
      | None => (NotFound (not_found_message username), st)
      end
  end.

(** The page is acquired, used for one navigation and released. *)
Definition fetch (username : string) (st : state) : result fetched * state :=
  match acquire_page st with
  | (Returned _, st1) =>
      let (r, st2) := navigate username st1 in (Returned r, st2)
  | (Raised e, st1) => (Raised e, st1)
  end.

(** Modelled from the spec: "the orchestration layer may retry once with a
    fresh page before surfacing failure" (4.2, 7). *)
Definition load (username : string) (st : state) : result fetched * state :=
  match fetch username st with
  | (Returned TransientError, st1) => fetch username st1
  | other => other
  end.

(** Modelled from the spec: the profile cache of 4.4, keyed by username. *)
Fixpoint cache_lookup (username : string) (entries : list (string * content))
  : option content :=
  match entries with
  | [] => None
  | (k, c) :: entries' =>
      if decide (k = username) then Some c else cache_lookup username entries'
  end.

Definition cache_store (username : string) (c : content) (st : state)
  : state :=
  with_cache (take (capacity st) ((username, c) :: cache st)) st.

Definition get_or_fetch (username : string) (st : state)
  : result fetched * state :=
  match cache_lookup username (cache st) with
  | Some c => (Returned (RawContent c), st)
  | None =>
      match load username st with
      | (Returned (RawContent c), st1) =>
          (Returned (RawContent c), cache_store username c st1)
      | other => other
      end
  end.

(** Modelled from the spec: the error result of section 3, a tagged
    alternative that carries a message; in [main.py] it is the dict with
    the key ["error"]. *)
Definition ErrorResult (message : string) : pydict :=
  {["error" := PStr message]}.

(** Modelled from the spec: the extractor of 4.3: pure functions from raw
    content to a record.  A missing field becomes the empty string or
    zero; extraction fails only when the shape is not recognised or the
    page does not show whose profile it is, and the record's [userName] is
    the one the page shows. *)
Definition text_field (p : page) (k : string) : string * pyval :=
  (k, PStr (default EmptyString (texts p !! k))).

Definition int_field (p : page) (k : string) : string * pyval :=
  (k, PInt (default 0 (numbers p !! k))).

Definition identified (c : content) : option (string * page) :=
  match c with
  | ProfilePage p => (fun h => (h, p)) <$> handle p
  | Unrecognized => None
  end.

Definition profile_record (h : string) (p : page) : pydict :=
  list_to_map
    (("userName", PStr h)
     :: (text_field p <$> ["fullName"; "designation"])
     ++ (int_field p <$> ["codingScore"; "problemsSolved"; "instituteRank";
                          "articlesPublished"; "potdStreak";
                          "longestStreak"; "potdsSolved"])).

Definition buckets : list string :=
  ["School"; "Basic"; "Easy"; "Medium"; "Hard"].

Definition stats_record (h : string) (p : page) : pydict :=
  list_to_map
    (("userName", PStr h)
     :: (int_field p <$> buckets ++ ["totalProblemsSolved"])).

Definition problem (qu : string * string) : pyval :=
  PDict (<["question" := PStr qu.1]> (<["questionUrl" := PStr qu.2]> ∅)).

(** Modelled from the spec: "deduplicate by (title, url) pair and preserve
    first-seen order per difficulty bucket" (4.3). *)
Fixpoint first_seen (seen l : list (string * string))
  : list (string * string) :=
  match l with
  | [] => []
  | qu :: l' =>
      if decide (qu ∈ seen) then first_seen seen l'
      else qu :: first_seen (qu :: seen) l'
  end.

Definition bucket_problems (p : page) (b : string) : list (string * string) :=
  first_seen [] (default [] (solved p !! b)).

Definition problems_record (h : string) (p : page) : pydict :=
  <["userName" := PStr h]>
  (<["problemsByDifficulty" :=
       PDict (list_to_map
                ((fun b => (b, PInt (Z.of_nat (length (bucket_problems p b)))))
                   <$> buckets))]>
  (<["Problems" :=
       PDict (list_to_map
                ((fun b => (b, PList (problem <$> bucket_problems p b)))
                   <$> buckets))]> ∅)).

Definition extract (record : string -> page -> pydict) (c : content)
  : option pydict :=
  (fun hp => record hp.1 hp.2) <$> identified c.

(** Modelled from the spec: an entry point of 4.5.  It trims the username,
    takes the bundle from the cache or fetches it, extracts, and normalises
    the result to the record or to an error result: a missing user and a
    page that cannot be parsed give the same message, a fetch that failed
    twice a generic one (7).  A session that is unavailable is not an error
    result: it fails the request (4.1, 7). *)
Definition entry_point (record : string -> page -> pydict)
    (userName : string) (st : state) : result pydict * state :=
  let username := strip userName in
  match get_or_fetch username st with
  | (Returned (RawContent c), st1) =>
      match extract record c with
      | Some data => (Returned data, st1)
      | None => (Returned (ErrorResult (not_found_message username)), st1)
      end
  | (Returned (NotFound message), st1) => (Returned (ErrorResult message), st1)
  | (Returned TransientError, st1) =>
      (Returned (ErrorResult "Failed to fetch profile"), st1)
  | (Raised e, st1) => (Raised e, st1)
  end.

(** Modelled from the spec: the three entry points of the scraper;
    [get_gfg_data] answers with the stats, [fetch_user_profile] with the
    profile, [fetch_problem_list] with the solved problems, and
    [close_browser] is the shutdown of the session manager. *)
#[global] Instance imports : Imports state := {|
  get_gfg_data := entry_point stats_record;
  fetch_user_profile := entry_point profile_record;
  fetch_problem_list := entry_point problems_record;
  close_browser := shutdown;
  generate_stats_svg := fun _ => "<svg></svg>";
  get_custom_docs_html := "<html></html>"
|}.




(** A site with one profile, ["Alice"], reached over a network whose next
    navigation times out, with a browser that has not started yet. *)
Definition alice_page : page :=
  Page (Some "Alice") {["fullName" := "Alice A"]} {["codingScore" := 120]} ∅.

Definition one_profile : state :=
  State {["Alice" := ProfilePage alice_page]} true 1 NotStarted 8 [].

(** The same site when no browser can be launched. *)
Definition no_browser : state :=
  State {["Alice" := ProfilePage alice_page]} false 0 NotStarted 8 [].

End Facade.

(** ** Routing

    The path operations of [main.py], in the order of their decorators.  A
    request path is the list of its segments: [/] is the empty list,
    [/stats/alice] is [["stats"; "alice"]].  A route matches a whole path;
    [{userName}] takes one segment, which cannot be empty; the first route
    of the list that matches answers. *)

Inductive segment :=
| Lit (s : string)
| Param (name : string).

Inductive endpoint :=
| framework_endpoint (name : string)
    (* a route that is not one of [main.py]'s *)
| endpoint_health_check
| endpoint_custom_docs
| endpoint_get_user_profile_endpoint
| endpoint_get_user_stats_endpoint
| endpoint_get_solved_problems_endpoint
| endpoint_get_stats_card.

Record route := Route {
  route_path : list segment;
  route_endpoint : endpoint
}.

Definition declared_routes : list route :=
  [ Route [] endpoint_health_check;
    Route [Lit "docs"] endpoint_custom_docs;
    Route [Lit "profile"; Param "userName"] endpoint_get_user_profile_endpoint;
    Route [Lit "stats"; Param "userName"] endpoint_get_user_stats_endpoint;
    Route [Lit "problems"; Param "userName"]
          endpoint_get_solved_problems_endpoint;
    Route [Param "userName"] endpoint_get_stats_card ].

(** The path parameters a pattern binds on a path, when it matches. *)
Fixpoint match_path (pattern : list segment) (path : list string)
  : option (list (string * string)) :=
  match pattern, path with
  | [], [] => Some []
  | Lit s :: pattern', x :: path' =>
      if decide (x = s) then match_path pattern' path' else None
  | Param n :: pattern', x :: path' =>
      if decide (x = EmptyString) then None
      else cons (n, x) <$> match_path pattern' path'
  | _, _ => None
  end.

Fixpoint resolve (routes : list route) (path : list string)
  : option (endpoint * list (string * string)) :=
  match routes with
  | [] => None
  | r :: routes' =>
      match match_path (route_path r) path with
      | Some params => Some (route_endpoint r, params)
      | None => resolve routes' path
      end
  end.

(** The call the framework makes for a matched route: the path parameter
    [userName] and, for the stats route, the query parameter [format]. *)
Definition request_of (e : endpoint) (params : list (string * string))
    (format : option string) : option request :=
  let userName := (list_to_map params : gmap string string) !! "userName" in
  match e with
  | framework_endpoint _ => None
  | endpoint_health_check => Some GET_root
  | endpoint_custom_docs => Some GET_docs
  | endpoint_get_user_profile_endpoint => GET_profile <$> userName
  | endpoint_get_user_stats_endpoint =>
      (fun u => GET_stats u format) <$> userName
  | endpoint_get_solved_problems_endpoint => GET_problems <$> userName
  | endpoint_get_stats_card => GET_card <$> userName
  end.

(** [app = FastAPI(...)] comes before the decorators, so the routes the
    constructor registered, [earlier] (each a pattern and the name of what
    answers it), are tried first. *)
Definition framework_routes (earlier : list (list segment * string))
  : list route :=
  (fun pn => Route pn.1 (framework_endpoint pn.2)) <$> earlier.

Definition dispatch (earlier : list (list segment * string))
    (path : list string) (format : option string) : option request :=
  match resolve (framework_routes earlier ++ declared_routes) path with
  | Some (e, params) => request_of e params format
  | None => None
  end.


(** The calls into the scraper that answering a request makes. *)
Definition scraper_calls (req : request) : list call :=
  match req with
  | GET_root | GET_docs => []
  | GET_profile userName => [Call_fetch_user_profile userName]
  | GET_stats userName supplied =>
      match Query_format supplied with
      | Returned _ => [Call_get_gfg_data userName]
      | Raised _ => []
      end
  | GET_problems userName => [Call_fetch_problem_list userName]
  | GET_card userName => [Call_get_gfg_data userName]
  end.

(** The username a call into the scraper carries. *)
Definition call_userName (cl : call) : option string :=
  match cl with
  | Call_get_gfg_data userName
  | Call_fetch_user_profile userName
  | Call_fetch_problem_list userName => Some userName
  | Call_close_browser => None
  end.

(** * Properties *)

(** ** Running the handlers on the scripted scraper *)

Example profile_of_alice :
  (get_user_profile_endpoint "alice" Scripted.start).1
  = Returned (JSONBody Scripted.alice).
Proof. reflexivity. Qed.

Example profile_of_nobody :
  (get_user_profile_endpoint "nobody" Scripted.start).1
  = Raised (HTTPException 404 (PStr "User not found")).
Proof. reflexivity. Qed.

Example profile_crash :
  (get_user_profile_endpoint "crash" Scripted.start).1
  = Raised (PyException "TimeoutError").
Proof. reflexivity. Qed.

Example stats_svg_of_alice :
  (handle_request (GET_stats "alice" (Some "svg")) Scripted.start).1
  = Returned (Response "<svg></svg>" "image/svg+xml"
                       {["Cache-Control" := "public, max-age=14400"]}).
Proof. reflexivity. Qed.

Example stats_xml_rejected :
  handle_request (GET_stats "alice" (Some "xml")) Scripted.start
  = (Raised (RequestValidationError "format"), Scripted.start).
Proof. reflexivity. Qed.

Example facade_exact_match :
  (get_user_profile_endpoint "  Alice " (World Facade.one_profile [])).1
  = Returned (JSONBody (Facade.profile_record "Alice" Facade.alice_page))
  /\ (get_user_profile_endpoint "alice" (World Facade.one_profile [])).1
     = Raised (HTTPException 404 (PStr "User not found: alice"))
  /\ (get_user_profile_endpoint "Alice" (World Facade.no_browser [])).1
     = Raised (PyException "SessionUnavailable").
Proof. repeat split; vm_compute; reflexivity. Qed.

(** ** The shape of the handlers *)

Section Surface.

Context {Env : Type} `{Imports Env}.

(** Every data handler has one shape: await the scraper, then branch on
    the key ["error"]. *)

Lemma handler_of_unfold ep userName w :
  handler_of ep userName w
  = match scraper_of ep userName (env w) with
    | (Returned data, e') =>
        let w' := World e' (calls w ++ [call_of ep userName]) in
        match data !! "error" with
        | Some detail => (Raised (HTTPException 404 detail), w')
        | None => (Returned (success_of ep data), w')
        end
    | (Raised e, e') =>
        (Raised e, World e' (calls w ++ [call_of ep userName]))
    end.
Proof.
  destruct ep as [|format|]; cbn;
    unfold get_user_profile_endpoint, get_user_stats_endpoint,
           get_solved_problems_endpoint, bind, await.
  - destruct (fetch_user_profile userName (env w)) as [[d|e] e']; [|done].
    by destruct (d !! "error").
  - destruct (get_gfg_data userName (env w)) as [[d|e] e']; [|done].
    destruct (d !! "error"); [done|]. by destruct (String.eqb format "svg").
  - destruct (fetch_problem_list userName (env w)) as [[d|e] e']; [|done].
    by destruct (d !! "error").
Qed.

Lemma get_stats_card_unfold userName w :
  get_stats_card userName w
  = match get_gfg_data userName (env w) with
    | (Returned data, e') =>
        let w' := World e' (calls w ++ [Call_get_gfg_data userName]) in
        match data !! "error" with
        | Some detail => (Raised (HTTPException 404 detail), w')
        | None =>
            (Returned (Response (generate_stats_svg data) "image/svg+xml"
                                {["Cache-Control" := "public, max-age=14400"]}),
             w')
        end
    | (Raised e, e') =>
        (Raised e, World e' (calls w ++ [Call_get_gfg_data userName]))
    end.
Proof.
  unfold get_stats_card, bind, await.
  destruct (get_gfg_data userName (env w)) as [[d|e] e']; [|done].
  by destruct (d !! "error").
Qed.

(** A handler calls the scraper exactly once, with the username it was
    given, and never calls [close_browser]. *)

Lemma handler_of_calls ep userName w :
  calls (handler_of ep userName w).2 = calls w ++ [call_of ep userName].
Proof.
  rewrite handler_of_unfold.
  destruct (scraper_of ep userName (env w)) as [[d|e] e']; [|done].
  by destruct (d !! "error").
Qed.

Lemma get_stats_card_calls userName w :
  calls (get_stats_card userName w).2 = calls w ++ [Call_get_gfg_data userName].
Proof.
  rewrite get_stats_card_unfold.
  destruct (get_gfg_data userName (env w)) as [[d|e] e']; [|done].
  by destruct (d !! "error").
Qed.

Lemma close_count_app cs1 cs2 :
  close_count (cs1 ++ cs2) = (close_count cs1 + close_count cs2)%nat.
Proof. unfold close_count. by rewrite filter_app, length_app. Qed.

Lemma close_count_call_of ep userName :
  close_count [call_of ep userName] = 0%nat.
Proof. by destruct ep. Qed.

Lemma handler_of_close_count ep userName w :
  close_count (calls (handler_of ep userName w).2) = close_count (calls w).
Proof.
  rewrite handler_of_calls, close_count_app, close_count_call_of. lia.
Qed.

Lemma handle_request_close_count req w :
  close_count (calls (handle_request req w).2) = close_count (calls w).
Proof.
  destruct req as [| |u|u supplied|u|u]; cbn [handle_request]; try done.
  - apply (handler_of_close_count profile_endpoint).
  - destruct (Query_format supplied) as [format|e]; [|done].
    apply (handler_of_close_count (stats_endpoint format)).
  - apply (handler_of_close_count problems_endpoint).
  - rewrite get_stats_card_calls, close_count_app.
    replace (close_count [Call_get_gfg_data u]) with 0%nat by done. lia.
Qed.

Lemma serve_close_count reqs w :
  close_count (calls (serve reqs w).2) = close_count (calls w).
Proof.
  revert w. induction reqs as [|req reqs IH]; intros w; [done|].
  cbn [serve]. rewrite IH. apply handle_request_close_count.
Qed.

Lemma lifespan_calls {A} (app_body : M Env A) w :
  calls (lifespan app_body w).2 = calls (app_body w).2 ++ [Call_close_browser].
Proof.
  unfold lifespan, try_finally, await.
  destruct (app_body w) as [r w1]. cbn.
  by destruct (close_browser (env w1)) as [[[]|e] e'].
Qed.

Lemma lifespan_outcome {A} (app_body : M Env A) w :
  (lifespan app_body w).1
  = match close_browser (env (app_body w).2) with
    | (Returned _, _) => (app_body w).1
    | (Raised e, _) => Raised e
    end.
Proof.
  unfold lifespan, try_finally, await.
  destruct (app_body w) as [r w1]. cbn.
  by destruct (close_browser (env w1)) as [[[]|e] e'].
Qed.

(** The framework applies the response model to what the handler
    returned, and lets through what it raised. *)
Lemma respond_unfold (c : lax) req w :
  respond c req w
  = match handle_request req w with
    | (Returned r, w') => (apply_response_model c req r, w')
    | (Raised e, w') => (Raised e, w')
    end.
Proof.
  unfold respond, bind. by destruct (handle_request req w) as [[r|e] w'].
Qed.

End Surface.

(** ** The HTTP surface *)

Section Claims.

Context {Env : Type} `{Imports Env}.

Implicit Types (w : world Env) (userName format : string) (data : pydict).

(** C8.  The liveness endpoint [GET /] answers every invocation, in every
    state of the application, with the JSON object that has exactly the two
    keys [status] and [service], bound to ["ok"] and ["GFG Scraper"]; it
    calls nothing and leaves the state as it found it, also when the
    request goes through the framework ([respond]). *)
Theorem health_check_payload (c : lax) w :
  exists payload,
    health_check w = (Returned (JSONBody payload), w)
    /\ respond c GET_root w = (Returned (JSONBody payload), w)
    /\ payload !! "status" = Some (PStr "ok")
    /\ payload !! "service" = Some (PStr "GFG Scraper")
    /\ dom payload = {["status"; "service"]}.
Proof.
  exists (<["status" := PStr "ok"]> (<["service" := PStr "GFG Scraper"]> ∅)).
  split; [reflexivity|]. split; [reflexivity|].
  split; [by rewrite lookup_insert_eq|].
  split; [by rewrite lookup_insert_ne, lookup_insert_eq|].
  rewrite !dom_insert_L, dom_empty_L. set_solver.
Qed.

(** C1, as the code has it.  For every username and each of the three data
    entry points, the handler's outcome is decided by what the awaited
    scraper function does.  When it returns a dict [data], the handler
    raises [HTTPException(404, detail)] exactly when [data] has the key
    ["error"], with [detail] the value under that key, it raises nothing
    else, and otherwise it returns the response built from [data].  When
    the scraper function raises, the handler catches nothing and the
    exception leaves it unchanged.  What the framework then sends: on
    [/profile] and [/problems] an error-free dict goes through the declared
    response model, which gives its validated form or a response validation
    error; on [/stats] the response is passed on as it is. *)
Theorem data_endpoints_outcome (c : lax) (ep : data_endpoint) userName w :
  match scraper_of ep userName (env w) with
  | (Returned data, _) =>
      (forall detail,
          (handler_of ep userName w).1 = Raised (HTTPException 404 detail)
          <-> data !! "error" = Some detail)
      /\ (forall e, (handler_of ep userName w).1 = Raised e ->
            exists detail, e = HTTPException 404 detail
                           /\ data !! "error" = Some detail)
      /\ (data !! "error" = None ->
          (handler_of ep userName w).1 = Returned (success_of ep data))
  | (Raised e, _) => (handler_of ep userName w).1 = Raised e
  end
  /\ (respond c (GET_profile userName) w).1
     = match fetch_user_profile userName (env w) with
       | (Returned data, _) =>
           match data !! "error" with
           | Some detail => Raised (HTTPException 404 detail)
           | None =>
               match validate_model c UserProfile data with
               | Some r => Returned (JSONBody r)
               | None => Raised (ResponseValidationError "UserProfile")
               end
           end
       | (Raised e, _) => Raised e
       end
  /\ (respond c (GET_problems userName) w).1
     = match fetch_problem_list userName (env w) with
       | (Returned data, _) =>
           match data !! "error" with
           | Some detail => Raised (HTTPException 404 detail)
           | None =>
               match validate_model c SolvedProblems data with
               | Some r => Returned (JSONBody r)
               | None => Raised (ResponseValidationError "SolvedProblems")
               end
           end
       | (Raised e, _) => Raised e
       end
  /\ (forall supplied,
        (respond c (GET_stats userName supplied) w).1
        = match Query_format supplied with
          | Returned format =>
              match get_gfg_data userName (env w) with
              | (Returned data, _) =>
                  match data !! "error" with
                  | Some detail => Raised (HTTPException 404 detail)
                  | None => Returned (success_of (stats_endpoint format) data)
                  end
              | (Raised e, _) => Raised e
              end
          | Raised e => Raised e
          end).
Proof.
  split; [|split; [|split]].
  - rewrite handler_of_unfold.
    destruct (scraper_of ep userName (env w)) as [[data|e] e']; [|done].
    cbn. destruct (data !! "error") as [msg|] eqn:Herr; cbn.
    + split; [|split].
      * intros detail. split; congruence.
      * intros e [= <-]. eauto.
      * discriminate.
    + split; [|split].
      * intros detail. split; discriminate.
      * discriminate.
      * done.
  - rewrite respond_unfold. cbn [handle_request].
    pose proof (handler_of_unfold profile_endpoint userName w) as Hu.
    cbn [handler_of scraper_of] in Hu. rewrite Hu.
    destruct (fetch_user_profile userName (env w)) as [[data|e] e']; [|done].
    cbv beta iota zeta. destruct (data !! "error"); [done|].
    cbn [success_of fst]. unfold apply_response_model. cbn [response_model].
    by destruct (validate_model c UserProfile data).
  - rewrite respond_unfold. cbn [handle_request].
    pose proof (handler_of_unfold problems_endpoint userName w) as Hu.
    cbn [handler_of scraper_of] in Hu. rewrite Hu.
    destruct (fetch_problem_list userName (env w)) as [[data|e] e']; [|done].
    cbv beta iota zeta. destruct (data !! "error"); [done|].
    cbn [success_of fst]. unfold apply_response_model. cbn [response_model].
    by destruct (validate_model c SolvedProblems data).
  - intros supplied. rewrite respond_unfold. cbn [handle_request].
    destruct (Query_format supplied) as [format|e]; [|done].
    pose proof (handler_of_unfold (stats_endpoint format) userName w) as Hu.
    cbn [handler_of scraper_of] in Hu. rewrite Hu.
    destruct (get_gfg_data userName (env w)) as [[data|e] e']; [|done].
    cbv beta iota zeta. destruct (data !! "error"); [done|].
    cbn [success_of fst]. by destruct (String.eqb format "svg").
Qed.

(** C3.  [GET /{userName}] and [GET /stats/{userName}?format=svg] are the
    same computation: run from the same state they give the same outcome
    and leave the same state.  With the result of [get_gfg_data] at hand:
    an error-free dict gives, on both, the SVG document rendered from it,
    with media type [image/svg+xml] and the header
    [Cache-Control: public, max-age=14400]; a dict with the key ["error"]
    gives, on both, a 404 with the error message as detail. *)
Theorem stats_card_same_as_stats_svg userName w :
  handle_request (GET_card userName) w
  = handle_request (GET_stats userName (Some "svg")) w
  /\ get_stats_card userName w = get_user_stats_endpoint userName "svg" w
  /\ match get_gfg_data userName (env w) with
     | (Returned data, _) =>
         (get_stats_card userName w).1
         = match data !! "error" with
           | Some detail => Raised (HTTPException 404 detail)
           | None =>
               Returned
                 (Response (generate_stats_svg data) "image/svg+xml"
                           {["Cache-Control" := "public, max-age=14400"]})
           end
     | (Raised e, _) => (get_stats_card userName w).1 = Raised e
     end.
Proof.
  assert (get_stats_card userName w = get_user_stats_endpoint userName "svg" w)
    as Heq.
  { rewrite get_stats_card_unfold.
    exact (eq_sym (handler_of_unfold (stats_endpoint "svg") userName w)). }
  split; [exact Heq|]. split; [exact Heq|].
  rewrite get_stats_card_unfold.
  destruct (get_gfg_data userName (env w)) as [[data|e] e']; [|done].
  cbn. by destruct (data !! "error").
Qed.

(** C4.  When the stats fetch succeeds (the scraper returns a dict without
    the key ["error"]), [GET /stats/{userName}?format=svg] returns a
    [Response] with media type [image/svg+xml] whose only header is
    [Cache-Control: public, max-age=14400], and [format=json] or no
    [format] at all returns the fetched dict itself as the JSON body; the
    route declares no response model, so the framework passes both on as
    they are. *)
Theorem stats_formats (c : lax) userName w data e' :
  get_gfg_data userName (env w) = (Returned data, e') ->
  data !! "error" = None ->
  (exists headers,
      (respond c (GET_stats userName (Some "svg")) w).1
      = Returned (Response (generate_stats_svg data) "image/svg+xml" headers)
      /\ headers !! "Cache-Control" = Some "public, max-age=14400"
      /\ dom headers = {["Cache-Control"]})
  /\ (respond c (GET_stats userName (Some "json")) w).1
     = Returned (JSONBody data)
  /\ (respond c (GET_stats userName None) w).1 = Returned (JSONBody data).
Proof.
  intros Hfetch Herr.
  assert (forall format,
    respond c (GET_stats userName (Some format)) w
    = match Query_format (Some format) with
      | Returned f =>
          (Returned (success_of (stats_endpoint f) data),
           World e' (calls w ++ [Call_get_gfg_data userName]))
      | Raised e => (Raised e, w)
      end) as Hsome.
  { intros format. unfold respond, bind. cbn [handle_request].
    destruct (Query_format (Some format)) as [f|e]; [|done].
    change (get_user_stats_endpoint userName f)
      with (handler_of (stats_endpoint f) userName).
    rewrite handler_of_unfold. cbn [scraper_of]. rewrite Hfetch. cbn.
    rewrite Herr. cbn. by destruct (String.eqb f "svg"). }
  split; [|split].
  - eexists. rewrite Hsome. cbn. split; [reflexivity|]. split; [done|].
    by rewrite dom_singleton_L.
  - by rewrite Hsome.
  - unfold respond, bind. cbn [handle_request Query_format].
    change (get_user_stats_endpoint userName "json")
      with (handler_of (stats_endpoint "json") userName).
    rewrite handler_of_unfold. cbn [scraper_of]. rewrite Hfetch. cbn.
    by rewrite Herr.
Qed.

(** C9.  [close_browser] is awaited exactly once, at teardown: whatever
    the application body did while the lifespan context was open, and
    whether it returned or raised, leaving the context appends one
    [close_browser] call after everything the body called, and the body's
    outcome stands unless [close_browser] itself raises; no request handler
    calls [close_browser], so a whole run of the application, serving any
    list of requests, adds exactly one such call. *)
Theorem close_browser_once_at_teardown :
  (forall A (app_body : M Env A) w,
      calls (lifespan app_body w).2
      = calls (app_body w).2 ++ [Call_close_browser]
      /\ (lifespan app_body w).1
         = match close_browser (env (app_body w).2) with
           | (Returned _, _) => (app_body w).1
           | (Raised e, _) => Raised e
           end)
  /\ (forall (e : exn) w,
        calls (lifespan (raise (A := unit) e) w).2
        = calls w ++ [Call_close_browser])
  /\ (forall req w,
        close_count (calls (handle_request req w).2) = close_count (calls w))
  /\ (forall reqs w,
        close_count (calls (lifespan (serve reqs) w).2)
        = S (close_count (calls w))).
Proof.
  split; [|split; [|split]].
  - intros A app_body w. split.
    + apply lifespan_calls.
    + apply lifespan_outcome.
  - intros e w. by rewrite lifespan_calls.
  - apply handle_request_close_count.
  - intros reqs w.
    rewrite lifespan_calls, close_count_app, serve_close_count.
    replace (close_count [Call_close_browser]) with 1%nat by done. lia.
Qed.

(** C10.  The query parameter [format] of [GET /stats/{userName}]: a
    supplied value is accepted exactly when it is ["json"] or ["svg"], and
    is then passed on unchanged; when the parameter is absent the handler
    runs with ["json"] and so returns the fetched dict as JSON; any other
    supplied value is rejected while the parameters are bound, with the
    state untouched, whereas the handler body, whenever it runs, calls
    [get_gfg_data]. *)
Theorem format_parameter userName w :
  (forall v, (exists format, Query_format (Some v) = Returned format)
             <-> v = "json" \/ v = "svg")
  /\ (forall v format, Query_format (Some v) = Returned format -> format = v)
  /\ Query_format None = Returned "json"
  /\ handle_request (GET_stats userName None) w
     = get_user_stats_endpoint userName "json" w
  /\ match get_gfg_data userName (env w) with
     | (Returned data, _) =>
         data !! "error" = None ->
         (handle_request (GET_stats userName None) w).1
         = Returned (JSONBody data)
     | (Raised _, _) => True
     end
  /\ (forall v, v <> "json" -> v <> "svg" ->
        handle_request (GET_stats userName (Some v)) w
        = (Raised (RequestValidationError "format"), w))
  /\ (forall format,
        calls (get_user_stats_endpoint userName format w).2
        = calls w ++ [Call_get_gfg_data userName]).
Proof.
  assert (forall v, v ∈ ["json"; "svg"] <-> v = "json" \/ v = "svg") as Hin.
  { intros v. rewrite !elem_of_cons, elem_of_nil. tauto. }
  split; [|split; [|split; [|split; [|split; [|split]]]]].
  - intros v. unfold Query_format. case_bool_decide as Hv.
    + split; [intros _; by apply Hin | eauto].
    + split; [intros [format [=]] | intros Hv'; by apply Hin in Hv'].
  - intros v format. unfold Query_format. case_bool_decide; congruence.
  - reflexivity.
  - reflexivity.
  - cbn [handle_request Query_format].
    pose proof (handler_of_unfold (stats_endpoint "json") userName w) as Hu.
    cbn [scraper_of handler_of] in Hu. rewrite Hu.
    destruct (get_gfg_data userName (env w)) as [[data|e] e']; [|done].
    cbn. by intros ->.
  - intros v Hj Hs. cbn [handle_request]. unfold Query_format.
    case_bool_decide as Hv; [|done]. apply Hin in Hv. tauto.
  - intros format. apply (handler_of_calls (stats_endpoint format)).
Qed.

End Claims.

(** The theorems above, run on the scripted scraper. *)

Lemma stats_formats_witness :
  get_gfg_data "alice" (env Scripted.start)
  = (Returned Scripted.alice, Scripted.demo)
  /\ Scripted.alice !! "error" = None
  /\ (respond strict (GET_stats "alice" None) Scripted.start).1
     = Returned (JSONBody Scripted.alice).
Proof.
  assert (get_gfg_data "alice" (env Scripted.start)
          = (Returned Scripted.alice, Scripted.demo)) as Hfetch
    by reflexivity.
  assert (Scripted.alice !! "error" = None) as Herr by reflexivity.
  split; [exact Hfetch|]. split; [exact Herr|].
  apply (stats_formats strict _ _ _ _ Hfetch Herr).
Defined.

(** C1, the claim as stated, fails in its last two parts.  An exception of
    the scraper leaves the handler as it is: a timeout on the scripted
    scraper, a session that cannot start on the scraper of the
    specification.  And the body is not always the fetched data: on
    [/problems] a dict without the fields of [SolvedProblems] ends in a
    response validation error, and on [/profile] the body is the validated
    record, with the fields of [UserProfile] and no others. *)

Lemma other_exceptions_escape :
  (handler_of profile_endpoint "crash" Scripted.start).1
  = Raised (PyException "TimeoutError")
  /\ (handler_of profile_endpoint "Alice" (World Facade.no_browser [])).1
     = Raised (PyException "SessionUnavailable")
  /\ ~ (forall ep userName e,
          (handler_of ep userName Scripted.start).1 = Raised e ->
          exists detail, e = HTTPException 404 detail)
  /\ scraper_of problems_endpoint "alice" (env Scripted.start)
     = (Returned Scripted.alice, Scripted.demo)
  /\ (forall c,
        (respond c (GET_problems "alice") Scripted.start).1
        = Raised (ResponseValidationError "SolvedProblems"))
  /\ (exists r,
        (respond strict (GET_profile "alice") Scripted.start).1
        = Returned (JSONBody r)
        /\ Scripted.alice !! "Easy" = Some (PInt 3)
        /\ r !! "Easy" = None
        /\ r !! "codingScore" = Some (PInt 0)
        /\ r <> Scripted.alice).
Proof.
  split; [reflexivity|]. split; [vm_compute; reflexivity|].
  split; [|split; [reflexivity|split]].
  - intros Hall.
    destruct (Hall profile_endpoint "crash" (PyException "TimeoutError")
                eq_refl) as [detail [=]].
  - intros c. rewrite respond_unfold. reflexivity.
  - eexists. split; [vm_compute; reflexivity|].
    split; [reflexivity|]. split; [vm_compute; reflexivity|].
    split; [vm_compute; reflexivity|].
    intros Heq.
    assert (Scripted.alice !! "Easy" = Some (PInt 3)) as Heasy by reflexivity.
    rewrite <- Heq in Heasy. vm_compute in Heasy. discriminate.
Qed.

(** C2.  On the scraper of the specification, when the session cannot start
    (no browser is running and none can be launched) and the username is
    not in the cache: acquiring a page fails with [SessionUnavailable] and
    leaves the state as it was; every data handler lets that exception
    through, after its one call into the scraper; so every request for data
    is answered with status 500, which is in the 500 range and is not 404. *)
Theorem session_unavailable_is_5xx (c : lax) (userName : string)
    (cs : list call) (st : Facade.state) :
  Facade.session st = Facade.NotStarted ->
  Facade.can_launch st = false ->
  Facade.cache_lookup (Facade.strip userName) (Facade.cache st) = None ->
  Facade.acquire_page st = (Raised Facade.SessionUnavailable, st)
  /\ (forall ep,
        handler_of ep userName (World st cs)
        = (Raised Facade.SessionUnavailable,
           World st (cs ++ [call_of ep userName])))
  /\ (forall req,
        req ∈ [GET_profile userName; GET_stats userName None;
               GET_stats userName (Some "json");
               GET_stats userName (Some "svg");
               GET_problems userName; GET_card userName] ->
        (respond c req (World st cs)).1 = Raised Facade.SessionUnavailable
        /\ status_code_of (respond c req (World st cs)).1 = 500)
  /\ (exists ep status_code,
        status_code_of (handler_of ep userName (World st cs)).1 = status_code
        /\ 500 <= status_code < 600
        /\ status_code <> 404).
Proof.
  intros Hsession Hlaunch Hmiss.
  assert (Facade.acquire_page st = (Raised Facade.SessionUnavailable, st))
    as Hacquire.
  { unfold Facade.acquire_page. by rewrite Hsession, Hlaunch. }
  assert (forall record,
    Facade.entry_point record userName st
    = (Raised Facade.SessionUnavailable, st)) as Hentry.
  { intros record.
    unfold Facade.entry_point, Facade.get_or_fetch, Facade.load, Facade.fetch.
    by rewrite Hmiss, Hacquire. }
  assert (forall ep,
    handler_of ep userName (World st cs)
    = (Raised Facade.SessionUnavailable,
       World st (cs ++ [call_of ep userName]))) as Hhandler.
  { intros ep. rewrite handler_of_unfold. cbn [env calls].
    destruct ep; cbn [scraper_of]; unfold get_gfg_data, fetch_user_profile,
      fetch_problem_list; cbn [Facade.imports]; by rewrite Hentry. }
  assert (get_stats_card userName (World st cs)
          = (Raised Facade.SessionUnavailable,
             World st (cs ++ [Call_get_gfg_data userName]))) as Hcard.
  { rewrite get_stats_card_unfold. cbn [env calls].
    unfold get_gfg_data; cbn [Facade.imports]. by rewrite Hentry. }
  split; [exact Hacquire|]. split; [exact Hhandler|]. split.
  - intros req Hreq.
    assert ((respond c req (World st cs)).1 = Raised Facade.SessionUnavailable)
      as Hout.
    { pose proof (Hhandler profile_endpoint) as Hprofile.
      pose proof (Hhandler (stats_endpoint "json")) as Hjson.
      pose proof (Hhandler (stats_endpoint "svg")) as Hsvg.
      pose proof (Hhandler problems_endpoint) as Hproblems.
      cbn [handler_of] in Hprofile, Hjson, Hsvg, Hproblems.
      rewrite respond_unfold.
      rewrite !elem_of_cons, elem_of_nil in Hreq.
      destruct Hreq as [->|[->|[->|[->|[->|[->|[]]]]]]];
        cbn [handle_request Query_format].
      - by rewrite Hprofile.
      - by rewrite Hjson.
      - replace (bool_decide ("json" ∈ ["json"; "svg"])) with true
          by (by vm_compute).
        by rewrite Hjson.
      - replace (bool_decide ("svg" ∈ ["json"; "svg"])) with true
          by (by vm_compute).
        by rewrite Hsvg.
      - by rewrite Hproblems.
      - by rewrite Hcard. }
    split; [exact Hout|]. by rewrite Hout.
  - exists profile_endpoint, 500. rewrite Hhandler. cbn. lia.
Qed.

Lemma session_unavailable_is_5xx_witness :
  Facade.session Facade.no_browser = Facade.NotStarted
  /\ Facade.can_launch Facade.no_browser = false
  /\ Facade.cache_lookup (Facade.strip "Alice")
       (Facade.cache Facade.no_browser) = None
  /\ status_code_of
       (respond strict (GET_profile "Alice") (World Facade.no_browser [])).1
     = 500.
Proof.
  assert (Facade.session Facade.no_browser = Facade.NotStarted) as Hsession
    by reflexivity.
  assert (Facade.can_launch Facade.no_browser = false) as Hlaunch
    by reflexivity.
  assert (Facade.cache_lookup (Facade.strip "Alice")
            (Facade.cache Facade.no_browser) = None) as Hmiss
    by reflexivity.
  split; [exact Hsession|]. split; [exact Hlaunch|]. split; [exact Hmiss|].
  destruct (session_unavailable_is_5xx strict "Alice" [] Facade.no_browser
              Hsession Hlaunch Hmiss) as (_ & _ & Hreq & _).
  apply Hreq. apply list_elem_of_here.
Defined.

(** ** The response models *)

Section Models.

Implicit Types (c : lax) (m : model_name) (f : field) (d r : pydict).

Lemma field_names_NoDup m : NoDup (field_names m).
Proof.
  destruct m;
    refine (bool_decide_unpack (NoDup _) _); vm_compute; exact I.
Qed.

Lemma validate_fields_dom vann (fs : list field) d r :
  validate_fields vann fs d = Some r ->
  dom r = list_to_set (name <$> fs).
Proof.
  revert r. induction fs as [|f fs IH]; intros r Hr; cbn in Hr.
  - injection Hr as <-. by rewrite dom_empty_L.
  - destruct (validate_field vann f d) as [v|]; [|done]. cbn in Hr.
    destruct (validate_fields vann fs d) as [r'|]; [|done]. cbn in Hr.
    injection Hr as <-. rewrite dom_insert_L, (IH r' eq_refl). done.
Qed.

(** A validated record holds, under each field's name, what validating
    that field gave. *)
Lemma validate_fields_lookup vann (fs : list field) d r f :
  NoDup (name <$> fs) ->
  validate_fields vann fs d = Some r ->
  f ∈ fs ->
  exists v, validate_field vann f d = Some v /\ r !! name f = Some v.
Proof.
  revert r. induction fs as [|g fs IH]; intros r Hnd Hr Hf.
  - by apply elem_of_nil in Hf.
  - cbn in Hr. apply NoDup_cons in Hnd as [Hg Hnd].
    destruct (validate_field vann g d) as [v|] eqn:Hv; [|done]. cbn in Hr.
    destruct (validate_fields vann fs d) as [r'|]; [|done]. cbn in Hr.
    injection Hr as <-. apply elem_of_cons in Hf as [->|Hf].
    + exists v. by rewrite lookup_insert_eq.
    + destruct (IH r' Hnd eq_refl Hf) as (v' & Hv' & Hr').
      exists v'. split; [done|]. rewrite lookup_insert_ne; [done|].
      intros Heq. apply Hg. rewrite Heq. by apply list_elem_of_fmap_2.
Qed.

Lemma validate_int_PInt c v v' :
  validate_int c v = Some v' -> exists z, v' = PInt z.
Proof.
  destruct v; cbn; try (destruct (lax_int c _); cbn; intros [= <-]; eauto).
  intros [= <-]. eauto.
Qed.

Lemma int_fields_default_0 m f :
  f ∈ model_fields m -> is_int_field f = true ->
  ann f = ann_int /\ default_value f = Some (PInt 0).
Proof.
  intros Hf Hint. unfold is_int_field in Hint.
  destruct m; cbn in Hf;
    repeat (apply elem_of_cons in Hf as [->|Hf]; [by cbn in *|]);
    by apply elem_of_nil in Hf.
Qed.

Lemma numeric_fields_spec m k :
  k ∈ numeric_fields m ->
  exists f, f ∈ model_fields m /\ is_int_field f = true /\ name f = k.
Proof.
  unfold numeric_fields. intros Hk.
  apply list_elem_of_fmap in Hk as (f & -> & Hf).
  apply list_elem_of_filter in Hf as [Hint Hf]. eauto.
Qed.

(** C5.  The field names of the public models are the ones of the
    compatibility contract, in this order, and the JSON object of every
    validated record has exactly these keys: for the four models, for a
    [Problem] nested in [SolvedProblems], and for the bodies that
    [GET /profile/{userName}] and [GET /problems/{userName}] send. *)
Theorem response_model_field_names :
  field_names UserProfile
  = ["userName"; "fullName"; "designation"; "codingScore"; "problemsSolved";
     "instituteRank"; "articlesPublished"; "potdStreak"; "longestStreak";
     "potdsSolved"]
  /\ field_names UserStats
     = ["userName"; "School"; "Basic"; "Easy"; "Medium"; "Hard";
        "totalProblemsSolved"]
  /\ field_names SolvedProblems
     = ["userName"; "problemsByDifficulty"; "Problems"]
  /\ field_names Problem = ["question"; "questionUrl"]
  /\ (forall c m d r,
        validate_model c m d = Some r ->
        dom r = list_to_set (field_names m))
  /\ (forall c d r,
        validate_nested c Problem (PDict d) = Some (PDict r) ->
        dom r = {["question"; "questionUrl"]})
  /\ (forall Env (I : Imports Env) c req m (w : world Env) r,
        response_model req = Some m ->
        (respond c req w).1 = Returned (JSONBody r) ->
        dom r = list_to_set (field_names m)).
Proof.
  split; [reflexivity|]. split; [reflexivity|]. split; [reflexivity|].
  split; [reflexivity|]. split; [|split].
  - intros c m d r Hr. by apply validate_fields_dom in Hr.
  - intros c d r Hr.
    change (validate_nested c Problem (PDict d))
      with (PDict <$> validate_fields (validate_ann c (fun _ _ => None))
                                      (model_fields Problem) d) in Hr.
    destruct (validate_fields _ _ d) as [r'|] eqn:Hr'; [|done].
    cbn in Hr. injection Hr as <-.
    apply validate_fields_dom in Hr'. rewrite Hr'. cbn. set_solver.
  - intros Env I c req m w r Hm Hr. unfold respond, bind in Hr.
    destruct (handle_request req w) as [[body|e] w']; [|done].
    cbn in Hr. unfold apply_response_model in Hr. rewrite Hm in Hr.
    destruct body as [data|]; [|done].
    destruct (validate_model c m data) as [r'|] eqn:Hr'; [|done].
    injection Hr as <-. by apply validate_fields_dom in Hr'.
Qed.

(** C6, as the code has it.  Every numeric field of a validated
    [UserProfile] or [UserStats] record holds an integer, and holds 0 when
    the input has no value for it; an integer in the input is kept as it
    is, whatever its sign: the models declare no lower bound. *)
Theorem numeric_fields_are_integers_default_0 c m d r k :
  validate_model c m d = Some r ->
  k ∈ numeric_fields m ->
  (exists z, r !! k = Some (PInt z))
  /\ (d !! k = None -> r !! k = Some (PInt 0))
  /\ (forall z, d !! k = Some (PInt z) -> r !! k = Some (PInt z))
  /\ numeric_fields UserProfile
     = ["codingScore"; "problemsSolved"; "instituteRank";
        "articlesPublished"; "potdStreak"; "longestStreak"; "potdsSolved"]
  /\ numeric_fields UserStats
     = ["School"; "Basic"; "Easy"; "Medium"; "Hard"; "totalProblemsSolved"].
Proof.
  intros Hr Hk.
  destruct (numeric_fields_spec m k Hk) as (f & Hf & Hint & <-).
  destruct (int_fields_default_0 m f Hf Hint) as [Hann Hdef].
  destruct (validate_fields_lookup _ _ d r f (field_names_NoDup m) Hr Hf)
    as (v & Hv & Hrk).
  unfold validate_field in Hv. rewrite Hann, Hdef in Hv. rewrite Hrk.
  split; [|split; [|split; [|split]]]; try reflexivity.
  - destruct (d !! name f) as [x|].
    + cbn in Hv. apply validate_int_PInt in Hv as [z ->]. eauto.
    + injection Hv as <-. eauto.
  - intros Hnone. by rewrite Hnone in Hv.
  - intros z Hz. rewrite Hz in Hv. cbn in Hv. congruence.
Qed.

End Models.

Lemma numeric_fields_are_integers_default_0_witness :
  exists r,
    validate_model strict UserProfile only_userName = Some r
    /\ "potdStreak" ∈ numeric_fields UserProfile
    /\ r !! "potdStreak" = Some (PInt 0).
Proof.
  assert ("potdStreak" ∈ numeric_fields UserProfile) as Hk.
  { refine (bool_decide_unpack (_ ∈ _) _). vm_compute. exact I. }
  assert (exists r, validate_model strict UserProfile only_userName = Some r)
    as [r Hr] by (eexists; vm_compute; reflexivity).
  exists r. split; [exact Hr|]. split; [exact Hk|].
  destruct (numeric_fields_are_integers_default_0 strict UserProfile
              only_userName r "potdStreak" Hr Hk) as (_ & Hdefault & _).
  apply Hdefault. reflexivity.
Defined.

(** C6, the claim as stated, fails: a negative coding score, and a
    negative count of hard problems, pass validation unchanged, whatever
    the lax conversions are. *)

Lemma negative_numbers_are_accepted :
  (forall c, exists r,
      validate_model c UserProfile negative_score = Some r
      /\ r !! "codingScore" = Some (PInt (-5)))
  /\ (forall c, exists r,
        validate_model c UserStats negative_hard = Some r
        /\ r !! "Hard" = Some (PInt (-1)))
  /\ "codingScore" ∈ numeric_fields UserProfile
  /\ "Hard" ∈ numeric_fields UserStats
  /\ -5 < 0 /\ -1 < 0.
Proof.
  split; [|split; [|split; [|split]]].
  - intros c. eexists. split; [vm_compute; reflexivity|]. reflexivity.
  - intros c. eexists. split; [vm_compute; reflexivity|]. reflexivity.
  - refine (bool_decide_unpack (_ ∈ _) _). vm_compute. exact I.
  - refine (bool_decide_unpack (_ ∈ _) _). vm_compute. exact I.
  - lia.
Qed.

(** ** Usernames *)

Section Usernames.

Import Facade.

Implicit Types (userName username : string) (st : state) (p : page)
  (record : string -> page -> pydict).

(** *** Trimming *)


















(** *** The session, the fetcher and the cache *)









(** *** The records *)






End Usernames.


(** * Beyond the claims *)

(** ** Routing *)

Section Routing.

Implicit Types (path : list string) (format : option string)
  (earlier : list (list segment * string)).

Lemma resolve_app (routes1 routes2 : list route) path :
  resolve (routes1 ++ routes2) path
  = match resolve routes1 path with
    | Some hit => Some hit
    | None => resolve routes2 path
    end.
Proof.
  induction routes1 as [|r routes1 IH]; [done|]. cbn.
  by destruct (match_path (route_path r) path).
Qed.

Lemma resolve_framework earlier path e params :
  resolve (framework_routes earlier) path = Some (e, params) ->
  exists name, e = framework_endpoint name.
Proof.
  induction earlier as [|[pat name] earlier IH]; [done|]. cbn.
  destruct (match_path pat path); [|done]. intros [= <- _]. eauto.
Qed.

(** The decorators of [main.py] alone, in closed form: what they would
    route if nothing were registered before them. *)
Lemma dispatch_declared path format :
  dispatch [] path format
  = match path with
    | [] => Some GET_root
    | [u] =>
        if decide (u = EmptyString) then None
        else if decide (u = "docs") then Some GET_docs
        else Some (GET_card u)
    | [a; u] =>
        if decide (u = EmptyString) then None
        else if decide (a = "profile") then Some (GET_profile u)
        else if decide (a = "stats") then Some (GET_stats u format)
        else if decide (a = "problems") then Some (GET_problems u)
        else None
    | _ => None
    end.
Proof.
  unfold dispatch. cbn [framework_routes fmap list_fmap app].
  destruct path as [|a [|u [|x rest]]]; cbn; try done;
    repeat (case_decide; subst; cbn; try done).
Qed.

Lemma dispatch_earlier earlier path format :
  dispatch earlier path format
  = match resolve (framework_routes earlier) path with
    | Some _ => None
    | None => dispatch [] path format
    end.
Proof.
  unfold dispatch. cbn [framework_routes fmap list_fmap app].
  rewrite resolve_app.
  destruct (resolve (framework_routes earlier) path) as [[e params]|] eqn:Hr;
    [|done].
  by destruct (resolve_framework _ _ _ _ Hr) as [name ->].
Qed.


(** X2.  Routes registered before the decorators of [main.py] can only
    take paths away from it: a path that one of them matches reaches no
    handler of [main.py], and every other path is routed as if they were
    not there. *)
Theorem earlier_routes_only_shadow earlier path format :
  dispatch earlier path format
  = match resolve (framework_routes earlier) path with
    | Some _ => None
    | None => dispatch [] path format
    end.
Proof. apply dispatch_earlier. Qed.


End Routing.

(** ** Calls into the scraper *)

Section Calls.

Context {Env : Type} `{Imports Env}.

Implicit Types (w : world Env) (req : request).

Lemma handle_request_calls req w :
  calls (handle_request req w).2 = calls w ++ scraper_calls req.
Proof.
  destruct req as [| |u|u supplied|u|u]; cbn [handle_request scraper_calls].
  - by rewrite app_nil_r.
  - by rewrite app_nil_r.
  - apply (handler_of_calls profile_endpoint).
  - destruct (Query_format supplied) as [format|e].
    + apply (handler_of_calls (stats_endpoint format)).
    + by rewrite app_nil_r.
  - apply (handler_of_calls problems_endpoint).
  - apply get_stats_card_calls.
Qed.

(** X4.  Answering a request calls the scraper at most once: never for the
    health check, the documentation page or a request whose [format] is
    rejected, which leave the state as it was, and once for the other
    requests, with the username exactly as the route bound it; applying the
    response model adds no call. *)
Theorem one_scraper_call_per_request (c : lax) req w :
  calls (handle_request req w).2 = calls w ++ scraper_calls req
  /\ calls (respond c req w).2 = calls w ++ scraper_calls req
  /\ (length (scraper_calls req) <= 1)%nat
  /\ match req with
     | GET_root | GET_docs => (handle_request req w).2 = w
     | GET_stats _ supplied =>
         match Query_format supplied with
         | Returned _ => True
         | Raised _ => (handle_request req w).2 = w
         end
     | _ => True
     end.
Proof.
  split; [apply handle_request_calls|]. split; [|split].
  - rewrite <- handle_request_calls. unfold respond, bind.
    by destruct (handle_request req w) as [[r|e] w'].
  - destruct req as [| |u|u supplied|u|u]; cbn; try lia.
    destruct (Query_format supplied); cbn; lia.
  - destruct req as [| |u|u supplied|u|u]; try done.
    cbn [handle_request]. by destruct (Query_format supplied).
Qed.

(** X5.  On the two routes that declare a response model, the model is
    applied after the error check and only to what the handler returned:
    a scraper dict with the key ["error"] gives the 404 whether or not the
    dict fits the model; an error-free dict gives its validated form as the
    body, or a response validation error when it does not fit. *)
Theorem response_model_after_error_check (c : lax) userName w :
  (forall data e',
      fetch_user_profile userName (env w) = (Returned data, e') ->
      (respond c (GET_profile userName) w).1
      = match data !! "error" with
        | Some detail => Raised (HTTPException 404 detail)
        | None =>
            match validate_model c UserProfile data with
            | Some r => Returned (JSONBody r)
            | None => Raised (ResponseValidationError "UserProfile")
            end
        end)
  /\ (forall data e',
        fetch_problem_list userName (env w) = (Returned data, e') ->
        (respond c (GET_problems userName) w).1
        = match data !! "error" with
          | Some detail => Raised (HTTPException 404 detail)
          | None =>
              match validate_model c SolvedProblems data with
              | Some r => Returned (JSONBody r)
              | None => Raised (ResponseValidationError "SolvedProblems")
              end
          end).
Proof.
  split; intros data e' Hfetch; unfold respond, bind; cbn [handle_request].
  - pose proof (handler_of_unfold profile_endpoint userName w) as Hu.
    cbn [handler_of scraper_of] in Hu. rewrite Hu, Hfetch.
    cbv beta iota zeta. destruct (data !! "error"); [done|].
    cbn [success_of fst]. unfold apply_response_model. cbn [response_model].
    by destruct (validate_model c UserProfile data).
  - pose proof (handler_of_unfold problems_endpoint userName w) as Hu.
    cbn [handler_of scraper_of] in Hu. rewrite Hu, Hfetch.
    cbv beta iota zeta. destruct (data !! "error"); [done|].
    cbn [success_of fst]. unfold apply_response_model. cbn [response_model].
    by destruct (validate_model c SolvedProblems data).
Qed.

End Calls.

(** ** Validation *)

Section Validation.

Implicit Types (c : lax) (m : model_name) (f : field) (d r : pydict)
  (vann : annotation -> pyval -> option pyval).

Lemma validate_fields_None vann (fs : list field) d :
  validate_fields vann fs d = None
  <-> exists f, f ∈ fs /\ validate_field vann f d = None.
Proof.
  induction fs as [|g fs IH]; cbn.
  - split; [done|]. intros (f & Hf & _). by apply elem_of_nil in Hf.
  - destruct (validate_field vann g d) as [v|] eqn:Hv; cbn.
    + destruct (validate_fields vann fs d) as [r|]; cbn.
      * split; [done|]. intros (f & Hf & Hnone).
        apply elem_of_cons in Hf as [->|Hf]; [congruence|].
        assert (Some r = None) as Habs by (apply IH; eauto). done.
      * split; [|done]. intros _.
        destruct (proj1 IH eq_refl) as (f & Hf & Hnone).
        exists f. split; [by apply elem_of_cons; right|done].
    + split; [|done]. intros _. exists g.
      split; [apply elem_of_cons; by left|done].
Qed.

(** What validation gives depends on the input only through the values
    under the field names. *)
Lemma validate_fields_ext vann (fs : list field) d d' :
  (forall f, f ∈ fs -> d !! name f = d' !! name f) ->
  validate_fields vann fs d = validate_fields vann fs d'.
Proof.
  induction fs as [|g fs IH]; intros Hagree; [done|]. cbn.
  assert (validate_field vann g d = validate_field vann g d') as ->.
  { unfold validate_field.
    by rewrite (Hagree g) by (apply elem_of_cons; by left). }
  rewrite IH; [done|]. intros f Hf. apply Hagree, elem_of_cons. by right.
Qed.

(** X6.  Validation fails exactly when some field fails: a field that has
    no default and is absent from the input, or a field whose value in the
    input does not fit its annotation.  In particular an input without
    [userName] fits none of [UserProfile], [UserStats] and
    [SolvedProblems], whatever else it holds. *)
Theorem validation_fails_iff c m d :
  (validate_model c m d = None
   <-> exists f, f ∈ model_fields m
         /\ match d !! name f with
            | Some v => validate_ann c (validate_nested c) (ann f) v = None
            | None => default_value f = None
            end)
  /\ (m <> Problem -> d !! "userName" = None -> validate_model c m d = None).
Proof.
  assert (validate_model c m d = None
   <-> exists f, f ∈ model_fields m
         /\ match d !! name f with
            | Some v => validate_ann c (validate_nested c) (ann f) v = None
            | None => default_value f = None
            end) as Hiff.
  { unfold validate_model. rewrite validate_fields_None.
    unfold validate_field.
    split; intros (f & Hf & Hfail); exists f; (split; [done|]);
      by destruct (d !! name f). }
  split; [exact Hiff|].
  intros Hm Hnone. apply Hiff.
  exists (Field "userName" ann_str None). cbn [name]. rewrite Hnone.
  split; [|done].
  destruct m; [| |done|]; cbn; apply elem_of_cons; by left.
Qed.

(** X7.  Validation reads the input only under the field names of the
    model: two inputs that agree there validate alike, so a key that is not
    a field never changes the outcome, whatever is stored under it. *)
Theorem validation_reads_only_fields c m d d' :
  (forall k, k ∈ field_names m -> d !! k = d' !! k) ->
  validate_model c m d = validate_model c m d'
  /\ forall k v, k ∉ field_names m ->
       validate_model c m (<[k := v]> d) = validate_model c m d.
Proof.
  intros Hagree. split.
  - apply validate_fields_ext. intros f Hf. apply Hagree.
    by apply list_elem_of_fmap_2.
  - intros k v Hk. apply validate_fields_ext. intros f Hf.
    rewrite lookup_insert_ne; [done|]. intros ->. apply Hk.
    by apply list_elem_of_fmap_2.
Qed.

(** A validator whose results it accepts unchanged. *)
Definition idempotent (g : pyval -> option pyval) : Prop :=
  forall v v', g v = Some v' -> g v' = Some v'.

Lemma validate_dict_fixed (item : pyval -> option pyval) d :
  (forall k v, d !! k = Some v -> item v = Some v) ->
  validate_dict item d = Some d.
Proof.
  intros Hfix. unfold validate_dict. case_decide as Hall.
  - f_equal. apply map_eq. intros k. rewrite lookup_omap, lookup_fmap.
    destruct (d !! k) as [v|] eqn:Hk; cbn; [|done]. by rewrite (Hfix k v Hk).
  - exfalso. apply Hall. intros k o Hko. rewrite lookup_fmap in Hko.
    destruct (d !! k) as [v|] eqn:Hk; cbn in Hko; [|done].
    injection Hko as <-. rewrite (Hfix k v Hk). by eexists.
Qed.

Lemma validate_dict_values (item : pyval -> option pyval) d d' k v' :
  validate_dict item d = Some d' ->
  d' !! k = Some v' ->
  exists v, d !! k = Some v /\ item v = Some v'.
Proof.
  unfold validate_dict. case_decide; [|done]. intros [= <-].
  rewrite lookup_omap, lookup_fmap.
  destruct (d !! k) as [v|]; cbn; [|done]. eauto.
Qed.

Lemma validate_str_PStr c v v' :
  validate_str c v = Some v' -> exists s, v' = PStr s.
Proof.
  destruct v; cbn; try (destruct (lax_str c _); cbn; intros [= <-]; eauto).
  intros [= <-]. eauto.
Qed.

Lemma validate_ann_idempotent c
    (vmodel : model_name -> pyval -> option pyval) (a : annotation) :
  (forall m, idempotent (vmodel m)) ->
  idempotent (validate_ann c vmodel a).
Proof.
  intros Hvm. induction a as [| |item IH|value IH|m]; intros v v' Hv.
  - cbn in Hv. by apply validate_str_PStr in Hv as [s ->].
  - cbn in Hv. by apply validate_int_PInt in Hv as [z ->].
  - destruct v as [| | | |l|]; try done. cbn in Hv.
    destruct (mapM (validate_ann c vmodel item) l) as [l'|] eqn:HM; [|done].
    cbn in Hv. injection Hv as <-. cbn.
    apply mapM_Some_1 in HM.
    rewrite (mapM_Some_2 (validate_ann c vmodel item) l' l'); [done|].
    induction HM as [|x y l l' Hxy HM IHl]; constructor; eauto.
  - destruct v as [| | | | |d]; try done. cbn in Hv.
    destruct (validate_dict (validate_ann c vmodel value) d) as [d'|] eqn:HD;
      [|done].
    cbn in Hv. injection Hv as <-. cbn.
    rewrite validate_dict_fixed; [done|]. intros k x Hk.
    destruct (validate_dict_values _ _ _ _ _ HD Hk) as (x0 & _ & Hx).
    by apply (IH x0).
  - exact (Hvm m v v' Hv).
Qed.

Lemma validate_fields_idempotent vann (fs : list field) d r :
  NoDup (name <$> fs) ->
  (forall a, idempotent (vann a)) ->
  (forall f dv, f ∈ fs -> default_value f = Some dv ->
                vann (ann f) dv = Some dv) ->
  validate_fields vann fs d = Some r ->
  validate_fields vann fs r = Some r.
Proof.
  intros Hnd Hidem. revert r.
  induction fs as [|g fs IH]; intros r Hdef Hr; [by injection Hr as <-|].
  apply NoDup_cons in Hnd as [Hg Hnd]. cbn in Hr.
  destruct (validate_field vann g d) as [v|] eqn:Hv; [|done]. cbn in Hr.
  destruct (validate_fields vann fs d) as [r'|] eqn:Hr'; [|done]. cbn in Hr.
  injection Hr as <-.
  assert (vann (ann g) v = Some v) as Hfix.
  { unfold validate_field in Hv. destruct (d !! name g) as [x|].
    - by apply (Hidem (ann g) x).
    - apply Hdef; [apply elem_of_cons; by left | done]. }
  cbn. unfold validate_field at 1. rewrite lookup_insert_eq, Hfix. cbn.
  rewrite (validate_fields_ext vann fs (<[name g:=v]> r') r').
  - rewrite (IH Hnd r'); [done| |done].
    intros f dv Hf. apply Hdef, elem_of_cons. by right.
  - intros f Hf. rewrite lookup_insert_ne; [done|].
    intros Heq. apply Hg. rewrite Heq. by apply list_elem_of_fmap_2.
Qed.

Lemma validate_nested_idempotent c m : idempotent (validate_nested c m).
Proof.
  intros v v' Hv. destruct m; try done. destruct v as [| | | | |d]; try done.
  change (validate_nested c Problem (PDict d))
    with (PDict <$> validate_fields (validate_ann c (fun _ _ => None))
                                    (model_fields Problem) d) in Hv.
  destruct (validate_fields _ _ d) as [r|] eqn:Hr; [|done].
  cbn in Hv. injection Hv as <-.
  change (validate_nested c Problem (PDict r))
    with (PDict <$> validate_fields (validate_ann c (fun _ _ => None))
                                    (model_fields Problem) r).
  assert (forall a, idempotent (validate_ann c (fun _ _ => None) a)) as Hidem.
  { intros a. apply validate_ann_idempotent. by intros m v0 v1. }
  assert (forall f dv, f ∈ model_fields Problem ->
            default_value f = Some dv ->
            validate_ann c (fun _ _ => None) (ann f) dv = Some dv) as Hdef.
  { intros f dv Hf Hdv. cbn in Hf.
    repeat (apply elem_of_cons in Hf as [->|Hf]; [done|]).
    by apply elem_of_nil in Hf. }
  by rewrite (validate_fields_idempotent _ _ d r
                (field_names_NoDup Problem) Hidem Hdef Hr).
Qed.

Lemma defaults_are_valid c m f dv :
  f ∈ model_fields m -> default_value f = Some dv ->
  validate_ann c (validate_nested c) (ann f) dv = Some dv.
Proof.
  intros Hf Hdv. destruct m; cbn in Hf;
    repeat (apply elem_of_cons in Hf as [->|Hf];
            [cbn in Hdv |- *; first [done | by injection Hdv as <-]|]);
    by apply elem_of_nil in Hf.
Qed.

(** X8.  Validation is idempotent: a record that came out of a model
    validates, against the same model, to itself.  So a handler may return
    an already validated record and the response model changes nothing. *)
Theorem validation_idempotent c m d r :
  validate_model c m d = Some r ->
  validate_model c m r = Some r.
Proof.
  intros Hr. unfold validate_model in *.
  apply (validate_fields_idempotent _ _ d r (field_names_NoDup m)).
  - intros a. apply validate_ann_idempotent, validate_nested_idempotent.
  - intros f dv. apply defaults_are_valid.
  - exact Hr.
Qed.

End Validation.

Lemma validation_reads_only_fields_witness :
  (forall k, k ∈ field_names UserProfile ->
             Scripted.alice !! k = only_userName !! k)
  /\ validate_model strict UserProfile Scripted.alice
     = validate_model strict UserProfile only_userName.
Proof.
  assert (forall k, k ∈ field_names UserProfile ->
                    Scripted.alice !! k = only_userName !! k) as Hagree.
  { intros k Hk. cbn in Hk.
    repeat (apply elem_of_cons in Hk as [->|Hk]; [reflexivity|]).
    by apply elem_of_nil in Hk. }
  split; [exact Hagree|].
  exact (proj1 (validation_reads_only_fields strict UserProfile
                  Scripted.alice only_userName Hagree)).
Defined.

Lemma validation_idempotent_witness :
  exists r,
    validate_model strict UserProfile negative_score = Some r
    /\ validate_model strict UserProfile r = Some r.
Proof.
  assert (exists r, validate_model strict UserProfile negative_score = Some r)
    as [r Hr] by (eexists; vm_compute; reflexivity).
  exists r. split; [exact Hr|].
  exact (validation_idempotent strict UserProfile negative_score r Hr).
Defined.

(** ** Fields of a validated record *)

(** X9.  Each field of a validated record is decided by that field alone:
    it holds the validated form of the input's value when the input has
    one, and the declared default otherwise, so an absent [fullName] or
    [designation] comes out as the empty string and an absent number as 0;
    a string given for a [str] field and an integer given for an [int]
    field are kept unchanged. *)
Theorem validated_record_fields (c : lax) (m : model_name) (d r : pydict)
    (f : field) :
  validate_model c m d = Some r ->
  f ∈ model_fields m ->
  r !! name f
  = match d !! name f with
    | Some v => validate_ann c (validate_nested c) (ann f) v
    | None => default_value f
    end
  /\ (forall s, ann f = ann_str -> d !! name f = Some (PStr s) ->
                r !! name f = Some (PStr s))
  /\ (forall z, ann f = ann_int -> d !! name f = Some (PInt z) ->
                r !! name f = Some (PInt z)).
Proof.
  intros Hr Hf.
  destruct (validate_fields_lookup _ _ d r f (field_names_NoDup m) Hr Hf)
    as (v & Hv & Hrf).
  unfold validate_field in Hv. rewrite Hrf.
  split; [by rewrite Hv|]. split.
  - intros s Hann Hd. rewrite Hd, Hann in Hv. cbn in Hv. congruence.
  - intros z Hann Hd. rewrite Hd, Hann in Hv. cbn in Hv. congruence.
Qed.

Lemma validated_record_fields_witness :
  exists r,
    validate_model strict UserProfile only_userName = Some r
    /\ r !! "fullName" = Some (PStr EmptyString)
    /\ r !! "userName" = Some (PStr "alice").
Proof.
  assert (exists r, validate_model strict UserProfile only_userName = Some r)
    as [r Hr] by (eexists; vm_compute; reflexivity).
  assert (Field "fullName" ann_str (Some (PStr EmptyString))
          ∈ model_fields UserProfile) as Hfull.
  { cbn. apply elem_of_cons. right. apply elem_of_cons. by left. }
  assert (Field "userName" ann_str None ∈ model_fields UserProfile) as Huser.
  { cbn. apply elem_of_cons. by left. }
  exists r. split; [exact Hr|]. split.
  - exact (proj1 (validated_record_fields strict UserProfile only_userName r
                    _ Hr Hfull)).
  - exact (proj1 (validated_record_fields strict UserProfile only_userName r
                    _ Hr Huser)).
Defined.

(** ** From the path to the scraper *)

(** X10.  [main.py] does nothing to a username on its way from the request
    path to the scraper: whatever routes were registered earlier, every
    call into the scraper that answering a routed request makes carries the
    last segment of the path, character for character. *)
Theorem username_reaches_scraper_unchanged
    (earlier : list (list segment * string)) (path : list string)
    (format : option string) (req : request) :
  dispatch earlier path format = Some req ->
  Forall (fun cl => call_userName cl = last path) (scraper_calls req).
Proof.
  rewrite dispatch_earlier, dispatch_declared.
  destruct (resolve (framework_routes earlier) path); [done|].
  destruct path as [|a [|u [|x rest]]]; [| | |done].
  - intros [= <-]. constructor.
  - repeat case_decide; try done.
    + intros [= <-]. constructor.
    + intros [= <-]. by repeat constructor.
  - repeat case_decide; try done; intros [= <-]; cbn;
      try (by repeat constructor).
    destruct (Query_format format); by repeat constructor.
Qed.

Lemma username_reaches_scraper_unchanged_witness :
  dispatch [] ["profile"; " Alice"] None = Some (GET_profile " Alice")
  /\ Forall (fun cl => call_userName cl = Some " Alice")
            (scraper_calls (GET_profile " Alice")).
Proof.
  assert (dispatch [] ["profile"; " Alice"] None
          = Some (GET_profile " Alice")) as Hd by reflexivity.
  split; [exact Hd|].
  exact (username_reaches_scraper_unchanged [] ["profile"; " Alice"] None
           (GET_profile " Alice") Hd).
Defined.
